(** * Shiptivity API: the ranked-lane update of [PUT /api/v1/clients/:id]

    A shallow embedding of [src/server.js].  The table [clients] is a list of
    rows (in rowid order); the sqlite3 connection carries the committed table,
    the table as the connection sees it, and whether a transaction is open.
    The handler is a function from the request (parsed id, [status] and
    [priority] of the JSON body) and the table to the responses it sends and
    the connection it leaves behind.

    Numbers are exact rationals: every finite JSON number is one.  The sum
    [priority + 1] is the exact sum; SQLite, which adds on 64-bit integers
    and IEEE doubles, computes that same value when the rank is a whole
    number of magnitude below 2^53 ([safe_rank]), and what is proved of a
    shifted rank is proved for such ranks.  The body fields are modelled at the JSON types the API
    documents plus [null] and absence: [status] is a string, [priority] a
    number.  The column [status] is TEXT and both columns are nullable. *)

From Stdlib Require Import List String ZArith QArith Qround Bool Lia Lqa.
Import ListNotations.

Local Open Scope string_scope.
Local Open Scope list_scope.
Local Open Scope Z_scope.

(** ** The table *)

(** A row of [clients].  [col_rest] stands for the columns the handler never
    writes (name, description, ...). *)
Record Client := mkClient {
  col_id : Z;
  col_status : option string;
  col_priority : option Q;
  col_rest : string
}.

Definition Table := list Client.

Definition set_status (v : option string) (c : Client) : Client :=
  mkClient (col_id c) v (col_priority c) (col_rest c).

Definition set_priority (v : option Q) (c : Client) : Client :=
  mkClient (col_id c) (col_status c) v (col_rest c).

(** ** SQL values and operators

    [None] is NULL.  A comparison with NULL is never true, and NULL + 1 is
    NULL. *)

Definition sql_text_eq (a b : option string) : bool :=
  match a, b with
  | Some x, Some y => String.eqb x y
  | _, _ => false
  end.

Definition sql_int_eq (a b : option Z) : bool :=
  match a, b with
  | Some x, Some y => Z.eqb x y
  | _, _ => false
  end.

Definition sql_num_eq (a b : option Q) : bool :=
  match a, b with
  | Some x, Some y => Qeq_bool x y
  | _, _ => false
  end.

Definition sql_ge (a b : option Q) : bool :=
  match a, b with
  | Some x, Some y => Qle_bool y x
  | _, _ => false
  end.

(** [priority + 1], as the exact sum.  SQLite rounds it on fractions and on
    whole numbers from 2^53 on; see [safe_rank]. *)
Definition sql_succ (a : option Q) : option Q :=
  match a with
  | Some x => Some (x + 1)%Q
  | None => None
  end.

(** ** The statements the handler runs *)

Inductive Stmt :=
| Begin                                                   (* BEGIN TRANSACTION *)
| Commit                                                  (* COMMIT *)
| ShiftUpdate (st : option string) (pr : option Q)
    (* UPDATE clients SET priority = priority + 1 WHERE status = ? AND priority >= ? *)
| TargetUpdate (st : option string) (pr : option Q) (i : option Z)
    (* UPDATE clients SET status = ?, priority = ? WHERE id = ? *)
| StatusUpdate (st : option string) (i : option Z).
    (* UPDATE clients SET status = ? WHERE id = ? *)

Definition shift_row (st : option string) (pr : option Q) (c : Client) : Client :=
  if sql_text_eq (col_status c) st && sql_ge (col_priority c) pr
  then set_priority (sql_succ (col_priority c)) c
  else c.

Definition target_row (st : option string) (pr : option Q) (i : option Z)
    (c : Client) : Client :=
  if sql_int_eq (Some (col_id c)) i
  then set_priority pr (set_status st c)
  else c.

Definition status_row (st : option string) (i : option Z) (c : Client) : Client :=
  if sql_int_eq (Some (col_id c)) i then set_status st c else c.

(** The connection: [committed] is what a crash or another connection would
    see, [working] what this connection reads and writes. *)
Record Db := mkDb {
  committed : Table;
  working : Table;
  in_txn : bool
}.

Definition connect (t : Table) : Db := mkDb t t false.

(** A write outside a transaction is committed at once (autocommit). *)
Definition write (f : Client -> Client) (d : Db) : Db :=
  let t := map f (working d) in
  mkDb (if in_txn d then committed d else t) t (in_txn d).

Definition exec (s : Stmt) (d : Db) : Db :=
  match s with
  | Begin => mkDb (committed d) (working d) true
  | Commit => mkDb (working d) (working d) false
  | ShiftUpdate st pr => write (shift_row st pr) d
  | TargetUpdate st pr i => write (target_row st pr i) d
  | StatusUpdate st i => write (status_row st i) d
  end.

(** ** Request values *)

(** [req.body.status]: absent, [null] or a string. *)
Inductive JsStatus :=
| StUndefined
| StNull
| StString (s : string).

(** [req.body.priority]: absent, [null] or a number. *)
Inductive JsPriority :=
| PrUndefined
| PrNull
| PrNumber (n : Q).

(** Truthiness, as [if (status)] and [if (priority)] test it. *)
Definition truthy_status (v : JsStatus) : bool :=
  match v with
  | StString s => negb (String.eqb s "")
  | _ => false
  end.

Definition truthy_priority (v : JsPriority) : bool :=
  match v with
  | PrNumber n => negb (Qeq_bool n 0)
  | _ => false
  end.

(** [ToNumber]; [None] is NaN. *)
Definition ToNumber (v : JsPriority) : option Q :=
  match v with
  | PrUndefined => None
  | PrNull => Some 0%Q
  | PrNumber n => Some n
  end.

Definition isNaN (v : JsPriority) : bool :=
  match ToNumber v with
  | None => true
  | Some _ => false
  end.

(** [priority <= 0]; false on NaN. *)
Definition le_zero (v : JsPriority) : bool :=
  match ToNumber v with
  | None => false
  | Some n => Qle_bool n 0
  end.

(** [['backlog', 'inProgress', 'complete'].includes(status)] *)
Definition lanes : list string := ["backlog"; "inProgress"; "complete"].

Definition includes (l : list string) (v : JsStatus) : bool :=
  match v with
  | StString s => existsb (String.eqb s) l
  | _ => false
  end.

(** How node-sqlite3 binds a parameter: a string as TEXT, a number as a
    number, [null] as NULL; [undefined] is left unbound, which SQLite reads
    as NULL. *)
Definition bind_status (v : JsStatus) : option string :=
  match v with
  | StString s => Some s
  | _ => None
  end.

Definition bind_priority (v : JsPriority) : option Q :=
  match v with
  | PrNumber n => Some n
  | _ => None
  end.

(** ** Responses *)

Inductive Payload :=
| Message (message long_message : string)
| DatabaseError                 (* { message: 'Database error', error: err } *)
| Rows (rows : Table).

Inductive Response :=
| Send (code : Z) (body : Payload).

(** The results the specification names. *)
Definition NotFound : Response :=
  Send 400 (Message "Invalid id provided." "Cannot find client with that id.").
Definition InvalidLane : Response :=
  Send 400 (Message "Invalid status provided."
                    "Status must be one of: [backlog | inProgress | complete].").
Definition InvalidRank : Response :=
  Send 400 (Message "Invalid priority provided."
                    "Priority must be a positive integer.").
Definition StorageError : Response := Send 500 DatabaseError.

(** ** Validation *)

Inductive Validation :=
| Valid                          (* { valid: true } *)
| Invalid (messageObj : Payload). (* { valid: false, messageObj } *)

(** [id] is the result of [parseInt(req.params.id, 10)]; [None] is NaN. *)
Definition validateId (id : option Z) (t : Table) : Validation :=
  match id with
  | None => Invalid (Message "Invalid id provided." "Id can only be integer.")
  | Some i =>
      match find (fun c => col_id c =? i) t with
      | None =>
          Invalid (Message "Invalid id provided." "Cannot find client with that id.")
      | Some _ => Valid
      end
  end.

Definition validatePriority (priority : JsPriority) : Validation :=
  if isNaN priority || le_zero priority
  then Invalid (Message "Invalid priority provided."
                        "Priority must be a positive integer.")
  else Valid.

(** ** Running the queued work

    What the model leaves to its caller: which statements fail, and where the
    final [db.all] falls among the statements.  [db.all] is issued outside
    [db.serialize], so sqlite3 does not order it after the queued updates;
    [select_at] is the number of statements that have run when it reads.
    A failed statement changes nothing and the transaction stays open.
    Failures of [db.get], BEGIN and COMMIT, for which the handler has no
    callback, are not modelled. *)
Record Oracle := mkOracle {
  fail_shift : bool;
  fail_target : bool;
  fail_status : bool;
  fail_select : bool;
  select_at : nat
}.

Definition no_faults (k : nat) : Oracle := mkOracle false false false false k.

Inductive Op :=
| Run (s : Stmt)      (* db.run(...) *)
| All.                (* db.all('SELECT * FROM clients', ...) *)

Definition fails (o : Oracle) (s : Stmt) : bool :=
  match s with
  | Begin | Commit => false
  | ShiftUpdate _ _ => fail_shift o
  | TargetUpdate _ _ _ => fail_target o
  | StatusUpdate _ _ => fail_status o
  end.

(** The error callbacks: each UPDATE answers 500; BEGIN and COMMIT have none. *)
Definition on_error (s : Stmt) : list Response :=
  match s with
  | Begin | Commit => []
  | _ => [Send 500 DatabaseError]
  end.

Definition schedule (k : nat) (stmts : list Stmt) : list Op :=
  map Run (firstn k stmts) ++ All :: map Run (skipn k stmts).

(** The calls to [res.send], in order, and the connection afterwards. *)
Fixpoint execute (o : Oracle) (ops : list Op) (d : Db) : list Response * Db :=
  match ops with
  | [] => ([], d)
  | Run s :: rest =>
      if fails o s
      then let (rs, d') := execute o rest d in (on_error s ++ rs, d')
      else execute o rest (exec s d)
  | All :: rest =>
      let here := if fail_select o then Send 500 DatabaseError
                  else Send 200 (Rows (working d)) in
      let (rs, d') := execute o rest d in (here :: rs, d')
  end.

(** ** The handler: [app.put('/api/v1/clients/:id', ...)] *)

Definition put_client (o : Oracle) (id : option Z) (status : JsStatus)
    (priority : JsPriority) (t : Table) : list Response * Db :=
  let d := connect t in
  match validateId id t with
  | Invalid messageObj => ([Send 400 messageObj], d)
  | Valid =>
      if truthy_status status && negb (includes lanes status)
      then ([InvalidLane], d)
      else if truthy_priority priority then
        match validatePriority priority with
        | Invalid priorityMessage => ([Send 400 priorityMessage], d)
        | Valid =>
            execute o
              (schedule (select_at o)
                 [Begin;
                  ShiftUpdate (bind_status status) (bind_priority priority);
                  TargetUpdate (bind_status status) (bind_priority priority) id;
                  Commit])
              d
        end
      else if truthy_status status then
        execute o (schedule (select_at o) [StatusUpdate (bind_status status) id]) d
      else
        execute o (schedule (select_at o) []) d
  end.

(** Express delivers the first [send]; a later one raises. *)
Definition delivered (rs : list Response) : option Response := hd_error rs.

(** The table after the request. *)
Definition store_after (r : list Response * Db) : Table := committed (snd r).

(** The statements that take effect, whatever the place of [db.all]. *)
Fixpoint run_all (o : Oracle) (stmts : list Stmt) (d : Db) : Db :=
  match stmts with
  | [] => d
  | s :: rest => run_all o rest (if fails o s then d else exec s d)
  end.

(** ** Lanes and ranks *)

(** [clash L a b]: both rows are in lane [L] and their ranks compare equal. *)
Definition clash (L : string) (a b : Client) : bool :=
  sql_text_eq (col_status a) (Some L)
  && sql_text_eq (col_status b) (Some L)
  && sql_num_eq (col_priority a) (col_priority b).

(** No two rows of lane [L] share a rank. *)
Fixpoint unique_ranks (L : string) (t : Table) : bool :=
  match t with
  | [] => true
  | c :: rest => forallb (fun b => negb (clash L c b)) rest && unique_ranks L rest
  end.

Definition row (i : Z) (L : string) (r : Z) : Client :=
  mkClient i (Some L) (Some (inject_Z r)) "".

(** The table of Scenario A. *)
Definition scenario_A : Table :=
  [row 1 "backlog" 1; row 2 "backlog" 2; row 3 "backlog" 3].

(** ** The read handlers *)

(** [status !== s] *)
Definition strict_neq (v : JsStatus) (s : string) : bool :=
  match v with
  | StString x => negb (String.eqb x s)
  | _ => true
  end.

(** [app.get('/api/v1/clients', ...)].  [status] is [req.query.status]: absent
    or a string (a repeated or nested parameter, which Express parses to an
    array or an object, is not modelled).  [err] tells whether [db.all]
    fails. *)
Definition get_clients (err : bool) (status : JsStatus) (t : Table) : Response :=
  if truthy_status status then
    if strict_neq status "backlog" && strict_neq status "inProgress"
       && strict_neq status "complete"
    then Send 400 (Message "Invalid status provided."
           "Status can only be one of the following: [backlog | in-progress | complete].")
    else if err then Send 500 DatabaseError
    else Send 200 (Rows (filter (fun c => sql_text_eq (col_status c) (bind_status status)) t))
  else if err then Send 500 DatabaseError
  else Send 200 (Rows t).

(** What [GET /api/v1/clients/:id] sends: a message, or the row [db.get]
    found ([None] when it found none). *)
Inductive RowResponse :=
| SendBody (code : Z) (body : Payload)
| SendRow (code : Z) (row : option Client).

(** [app.get('/api/v1/clients/:id', ...)].  [err] tells whether the handler's
    own [db.get] fails. *)
Definition get_client (err : bool) (id : option Z) (t : Table) : RowResponse :=
  match validateId id t with
  | Invalid messageObj => SendBody 400 messageObj
  | Valid =>
      if err then SendBody 500 DatabaseError
      else SendRow 200 (find (fun c => sql_int_eq (Some (col_id c)) id) t)
  end.

(** ** Properties of a table *)

(** Every row has a rank, and it is positive. *)
Definition positive_ranks (t : Table) : bool :=
  forallb (fun c => match col_priority c with
                    | Some p => negb (Qle_bool p 0)
                    | None => false
                    end) t.

(** [q] is a whole number. *)
Definition is_integer (q : Q) : bool := Qeq_bool q (inject_Z (Qfloor q)).

(** Every rank that is not NULL is a whole number. *)
Definition integer_ranks (t : Table) : bool :=
  forallb (fun c => match col_priority c with
                    | Some p => is_integer p
                    | None => true
                    end) t.

(** A whole number of magnitude below 2^53: one that SQLite holds exactly,
    as an integer or as a double, and to which it adds 1 exactly. *)
Definition safe_rank (q : Q) : bool :=
  is_integer q
  && Qle_bool (inject_Z (- 9007199254740991)) q
  && Qle_bool q (inject_Z 9007199254740991).

(** Every rank that is not NULL is safe. *)
Definition safe_ranks (t : Table) : bool :=
  forallb (fun c => match col_priority c with
                    | Some p => safe_rank p
                    | None => true
                    end) t.

(** Every row is in one of the three lanes. *)
Definition known_lanes (t : Table) : bool :=
  forallb (fun c => match col_status c with
                    | Some s => existsb (String.eqb s) lanes
                    | None => false
                    end) t.

(** The rows a 200 answer lists; nothing for any other answer. *)
Definition listed (r : Response) : Table :=
  match r with
  | Send 200 (Rows rows) => rows
  | _ => []
  end.

(** ** Running the queue *)

Section Execution.

Variable o : Oracle.

Lemma execute_runs (stmts : list Stmt) (d : Db) :
  snd (execute o (map Run stmts) d) = run_all o stmts d.
Proof.
  revert d; induction stmts as [|s rest IH]; intros d; simpl; [reflexivity|].
  destruct (fails o s).
  - specialize (IH d). destruct (execute o (map Run rest) d); simpl in *; exact IH.
  - apply IH.
Qed.

Lemma execute_schedule (k : nat) (stmts : list Stmt) (d : Db) :
  snd (execute o (schedule k stmts) d) = run_all o stmts d.
Proof.
  unfold schedule.
  revert k d; induction stmts as [|s rest IH]; intros k d.
  - rewrite firstn_nil, skipn_nil; reflexivity.
  - destruct k as [|k]; simpl.
    + pose proof (execute_runs (s :: rest) d) as H; simpl in H.
      destruct (fails o s).
      * destruct (execute o (map Run rest) d); simpl in *; exact H.
      * destruct (execute o (map Run rest) (exec s d)); simpl in *; exact H.
    + destruct (fails o s).
      * specialize (IH k d).
        destruct (execute o (map Run (firstn k rest) ++ All :: map Run (skipn k rest)) d);
          simpl in *; exact IH.
      * apply IH.
Qed.

(** With nothing queued, [db.all] reads the table as it is. *)
Lemma execute_nothing (k : nat) (d : Db) :
  execute o (schedule k []) d =
  ([if fail_select o then Send 500 DatabaseError else Send 200 (Rows (working d))], d).
Proof.
  unfold schedule; rewrite firstn_nil, skipn_nil; reflexivity.
Qed.

End Execution.

(** ** Validation *)

Lemma find_id_none (i : Z) (t : Table) :
  ~ In i (map col_id t) -> find (fun c => col_id c =? i) t = None.
Proof.
  induction t as [|c t IH]; simpl; intros H; [reflexivity|].
  destruct (Z.eqb_spec (col_id c) i) as [E|E].
  - exfalso; apply H; left; exact E.
  - apply IH; intros Hin; apply H; right; exact Hin.
Qed.

Lemma find_id_some (i : Z) (t : Table) :
  In i (map col_id t) -> exists c, find (fun c => col_id c =? i) t = Some c.
Proof.
  induction t as [|c t IH]; simpl; intros H; [contradiction|].
  destruct (Z.eqb_spec (col_id c) i) as [E|E].
  - exists c; reflexivity.
  - destruct H as [H|H]; [contradiction|]. apply IH; exact H.
Qed.

Lemma validateId_missing (i : Z) (t : Table) :
  ~ In i (map col_id t) ->
  validateId (Some i) t =
  Invalid (Message "Invalid id provided." "Cannot find client with that id.").
Proof.
  intros H; unfold validateId; rewrite (find_id_none _ _ H); reflexivity.
Qed.

Lemma validateId_found (i : Z) (t : Table) :
  In i (map col_id t) -> validateId (Some i) t = Valid.
Proof.
  intros H; unfold validateId.
  destruct (find_id_some _ _ H) as [c Hc]; rewrite Hc; reflexivity.
Qed.

Lemma lane_included (L : string) :
  In L lanes -> includes lanes (StString L) = true.
Proof.
  intros H; simpl in H.
  destruct H as [<-|[<-|[<-|[]]]]; reflexivity.
Qed.

Lemma positive_truthy (R : Q) : (0 < R)%Q -> truthy_priority (PrNumber R) = true.
Proof.
  intros H; simpl.
  destruct (Qeq_bool R 0) eqn:E; [|reflexivity].
  apply Qeq_bool_iff in E; lra.
Qed.

Lemma positive_valid (R : Q) : (0 < R)%Q -> validatePriority (PrNumber R) = Valid.
Proof.
  intros H; unfold validatePriority, isNaN, le_zero; simpl.
  destruct (Qle_bool R 0) eqn:E; [|reflexivity].
  apply Qle_bool_iff in E; lra.
Qed.

(** ** The store after an accepted rank change *)

Lemma rank_change_store (o : Oracle) (i : Z) (status : JsStatus) (R : Q) (t : Table) :
  In i (map col_id t) ->
  truthy_status status && negb (includes lanes status) = false ->
  (0 < R)%Q ->
  store_after (put_client o (Some i) status (PrNumber R) t) =
  let t1 := if fail_shift o then t
            else map (shift_row (bind_status status) (Some R)) t in
  if fail_target o then t1
  else map (target_row (bind_status status) (Some R) (Some i)) t1.
Proof.
  intros Hi Hs HR; unfold put_client, store_after.
  rewrite (validateId_found _ _ Hi), Hs, (positive_truthy _ HR), (positive_valid _ HR).
  rewrite execute_schedule; simpl.
  destruct (fail_shift o), (fail_target o); reflexivity.
Qed.

Lemma lane_change_store (o : Oracle) (i : Z) (L : string) (priority : JsPriority)
    (t : Table) :
  In i (map col_id t) ->
  In L lanes ->
  truthy_priority priority = false ->
  store_after (put_client o (Some i) (StString L) priority t) =
  if fail_status o then t else map (status_row (Some L) (Some i)) t.
Proof.
  intros Hi HL Hp; unfold put_client, store_after.
  rewrite (validateId_found _ _ Hi), (lane_included _ HL), Hp.
  rewrite andb_false_r.
  assert (Ht : truthy_status (StString L) = true).
  { simpl in HL. destruct HL as [<-|[<-|[<-|[]]]]; reflexivity. }
  rewrite Ht, execute_schedule; simpl.
  destruct (fail_status o); reflexivity.
Qed.

(** Evaluate the handler at a concrete request, for every place [k] of the
    final read among at most four statements. *)
Ltac by_schedule k :=
  destruct k as [|[|[|[|[|k]]]]]; vm_compute; repeat split; try reflexivity;
  try discriminate.

(** ** Scenario A *)

(** C3. With backlog holding (1, rank 1), (2, rank 2), (3, rank 3), the
    request to put record 3 at rank 1 of backlog is answered 200 with a
    listing, and leaves record 1 at rank 2, record 2 at rank 3 and record 3
    at rank 1, all in backlog. *)
Theorem scenario_A_reorders (k : nat) :
  let r := put_client (no_faults k) (Some 3) (StString "backlog") (PrNumber 1)
             scenario_A in
  (exists rows, fst r = [Send 200 (Rows rows)]) /\
  store_after r = [row 1 "backlog" 2; row 2 "backlog" 3; row 3 "backlog" 1].
Proof.
  cbv zeta; split.
  - by_schedule k; eexists; reflexivity.
  - rewrite rank_change_store; [reflexivity | simpl; tauto | reflexivity | reflexivity].
Qed.

(** ** Rejected requests *)

(** C7. A request whose id names no row is answered NotFound, and the table
    is left as it was. *)
Theorem unknown_id_not_found (o : Oracle) (i : Z) (status : JsStatus)
    (priority : JsPriority) (t : Table) :
  ~ In i (map col_id t) ->
  put_client o (Some i) status priority t = ([NotFound], connect t).
Proof.
  intros H; unfold put_client; rewrite (validateId_missing _ _ H); reflexivity.
Qed.

Lemma unknown_id_not_found_witness :
  put_client (no_faults 0) (Some 99) StUndefined (PrNumber 1) scenario_A =
  ([NotFound], connect scenario_A).
Proof.
  apply (unknown_id_not_found (no_faults 0) 99 StUndefined (PrNumber 1) scenario_A).
  simpl; intros [H|[H|[H|[]]]]; discriminate H.
Defined.

(** An id that did not parse is rejected too, with the table left as it was. *)
Lemma nan_id_rejected (o : Oracle) (status : JsStatus) (priority : JsPriority)
    (t : Table) :
  put_client o None status priority t =
  ([Send 400 (Message "Invalid id provided." "Id can only be integer.")], connect t).
Proof. reflexivity. Qed.

(** On an existing id, a status that is a non-empty string other than
    backlog, inProgress and complete is answered InvalidLane, and the table
    is left as it was. *)
Theorem unknown_lane_rejected (o : Oracle) (i : Z) (s : string)
    (priority : JsPriority) (t : Table) :
  In i (map col_id t) -> s <> "" -> ~ In s lanes ->
  put_client o (Some i) (StString s) priority t = ([InvalidLane], connect t).
Proof.
  intros Hi Hs HL; unfold put_client; rewrite (validateId_found _ _ Hi).
  assert (E1 : truthy_status (StString s) = true).
  { simpl; destruct (String.eqb_spec s ""); [contradiction|reflexivity]. }
  assert (E2 : includes lanes (StString s) = false).
  { simpl. simpl in HL.
    repeat match goal with
    | |- context [String.eqb s ?x] => destruct (String.eqb_spec s x); [exfalso; apply HL; auto|]
    end. reflexivity. }
  rewrite E1, E2; reflexivity.
Qed.

Lemma unknown_lane_rejected_witness :
  put_client (no_faults 0) (Some 1) (StString "urgent") PrUndefined scenario_A =
  ([InvalidLane], connect scenario_A).
Proof.
  apply (unknown_lane_rejected (no_faults 0) 1 "urgent" PrUndefined scenario_A).
  - simpl; left; reflexivity.
  - discriminate.
  - simpl; intros [H|[H|[H|[]]]]; discriminate H.
Defined.

(** C8. The empty string is not rejected as a lane: it is none of the three
    lanes, yet alone it is answered 200 with the listing, and with a rank it
    is stored as the target's lane. *)
Lemma empty_lane_accepted :
  ~ In "" lanes /\
  fst (put_client (no_faults 4) (Some 1) (StString "") PrUndefined scenario_A) =
  [Send 200 (Rows scenario_A)] /\
  Send 200 (Rows scenario_A) <> InvalidLane /\
  store_after (put_client (no_faults 4) (Some 1) (StString "") (PrNumber 1) scenario_A) =
  [mkClient 1 (Some "") (Some 1%Q) ""; row 2 "backlog" 2; row 3 "backlog" 3].
Proof.
  repeat split; try reflexivity; try discriminate.
  simpl; intros [H|[H|[H|[]]]]; discriminate H.
Qed.

(** A negative priority is answered InvalidRank, with the table left as it
    was. *)
Lemma negative_rank_rejected (o : Oracle) (i : Z) (status : JsStatus) (R : Q)
    (t : Table) :
  In i (map col_id t) ->
  truthy_status status && negb (includes lanes status) = false ->
  (R < 0)%Q ->
  put_client o (Some i) status (PrNumber R) t = ([InvalidRank], connect t).
Proof.
  intros Hi Hs HR; unfold put_client; rewrite (validateId_found _ _ Hi), Hs.
  assert (E1 : truthy_priority (PrNumber R) = true).
  { simpl; destruct (Qeq_bool R 0) eqn:E; [apply Qeq_bool_iff in E; lra|reflexivity]. }
  assert (E2 : validatePriority (PrNumber R) =
               Invalid (Message "Invalid priority provided."
                                "Priority must be a positive integer.")).
  { unfold validatePriority, isNaN, le_zero; simpl.
    destruct (Qle_bool R 0) eqn:E; [reflexivity|].
    assert (Qle_bool R 0 = true) by (apply Qle_bool_iff; lra). congruence. }
  rewrite E1, E2; reflexivity.
Qed.

(** ** Requests that change nothing *)

(** C10. On an existing id, a body with neither status nor priority is
    answered 200 with the listing of the whole table, which is left as it
    was. *)
Theorem empty_update_lists (o : Oracle) (i : Z) (t : Table) :
  In i (map col_id t) ->
  fail_select o = false ->
  put_client o (Some i) StUndefined PrUndefined t = ([Send 200 (Rows t)], connect t).
Proof.
  intros Hi Hf; unfold put_client; rewrite (validateId_found _ _ Hi); simpl.
  rewrite execute_nothing, Hf; reflexivity.
Qed.

Lemma empty_update_lists_witness :
  put_client (no_faults 0) (Some 2) StUndefined PrUndefined scenario_A =
  ([Send 200 (Rows scenario_A)], connect scenario_A).
Proof.
  apply (empty_update_lists (no_faults 0) 2 scenario_A).
  - simpl; right; left; reflexivity.
  - reflexivity.
Defined.

(** ** The displacement shift *)

Lemma target_row_other (st : option string) (pr : option Q) (i : Z) (c : Client) :
  col_id c <> i -> target_row st pr (Some i) c = c.
Proof.
  intros H; unfold target_row; simpl.
  destruct (Z.eqb_spec (col_id c) i); [contradiction|reflexivity].
Qed.

Lemma shift_row_id (st : option string) (pr : option Q) (c : Client) :
  col_id (shift_row st pr c) = col_id c.
Proof.
  unfold shift_row; destruct (_ && _); reflexivity.
Qed.

Lemma shift_row_status (st : option string) (pr : option Q) (c : Client) :
  col_status (shift_row st pr c) = col_status c.
Proof.
  unfold shift_row; destruct (_ && _); reflexivity.
Qed.

(** C1, amended. When both a lane L and a rank R are given, every record of
    lane L other than the target whose rank, a whole number below 2^53, was
    at least R has its rank raised by exactly 1, and every such record whose
    rank was below R is left as it was. *)
Theorem displacement_shifts_others (o : Oracle) (i : Z) (L : string) (R : Q)
    (t : Table) (n : nat) (c : Client) (p : Q) :
  In i (map col_id t) ->
  In L lanes ->
  (0 < R)%Q ->
  fail_shift o = false ->
  nth_error t n = Some c ->
  col_id c <> i ->
  col_status c = Some L ->
  col_priority c = Some p ->
  safe_rank p = true ->
  let t' := store_after (put_client o (Some i) (StString L) (PrNumber R) t) in
  ((R <= p)%Q -> nth_error t' n = Some (set_priority (Some (p + 1)%Q) c)) /\
  ((p < R)%Q -> nth_error t' n = Some c).
Proof.
  intros Hi HL HR Hf Hn Hc Hs Hp _ t'; subst t'.
  rewrite rank_change_store; try assumption.
  2:{ rewrite (lane_included _ HL); apply andb_false_r. }
  cbv zeta; rewrite Hf; cbv beta iota; simpl bind_status.
  assert (Hrow : nth_error (map (shift_row (Some L) (Some R)) t) n =
                 Some (shift_row (Some L) (Some R) c))
    by (apply map_nth_error; exact Hn).
  assert (Hsh : shift_row (Some L) (Some R) c =
                if Qle_bool R p then set_priority (Some (p + 1)%Q) c else c).
  { unfold shift_row; rewrite Hs, Hp; simpl.
    rewrite String.eqb_refl; reflexivity. }
  assert (Hfin : nth_error
            (if fail_target o then map (shift_row (Some L) (Some R)) t
             else map (target_row (Some L) (Some R) (Some i))
                      (map (shift_row (Some L) (Some R)) t)) n =
            Some (shift_row (Some L) (Some R) c)).
  { destruct (fail_target o); [exact Hrow|].
    rewrite (map_nth_error _ _ _ Hrow), target_row_other; [reflexivity|].
    rewrite shift_row_id; exact Hc. }
  rewrite Hsh in Hfin.
  split; intros Hcmp.
  - apply Qle_bool_iff in Hcmp; rewrite Hcmp in Hfin; exact Hfin.
  - destruct (Qle_bool R p) eqn:E; [apply Qle_bool_iff in E; lra|exact Hfin].
Qed.

Lemma displacement_shifts_others_witness :
  let t' := store_after (put_client (no_faults 4) (Some 3) (StString "backlog")
                           (PrNumber 2) scenario_A) in
  ((2 <= 2)%Q -> nth_error t' 1 = Some (set_priority (Some (2 + 1)%Q) (row 2 "backlog" 2))) /\
  ((2 < 2)%Q -> nth_error t' 1 = Some (row 2 "backlog" 2)).
Proof.
  apply (displacement_shifts_others (no_faults 4) 3 "backlog" 2 scenario_A 1
           (row 2 "backlog" 2) 2).
  - simpl; right; right; left; reflexivity.
  - simpl; left; reflexivity.
  - reflexivity.
  - reflexivity.
  - reflexivity.
  - simpl; lia.
  - reflexivity.
  - reflexivity.
  - reflexivity.
Defined.

(** C1 as stated fails at the target itself: in Scenario A record 3 is in
    backlog with rank 3 >= 1, and ends at rank 1, not 4. *)
Lemma displacement_moves_target :
  ~ (forall (n : nat) (c : Client) (p : Q),
       nth_error scenario_A n = Some c ->
       col_status c = Some "backlog" ->
       col_priority c = Some p ->
       let t' := store_after (put_client (no_faults 4) (Some 3) (StString "backlog")
                                (PrNumber 1) scenario_A) in
       ((1 <= p)%Q ->
        exists c', nth_error t' n = Some c' /\
                   sql_num_eq (col_priority c') (Some (p + 1)%Q) = true) /\
       ((p < 1)%Q ->
        exists c', nth_error t' n = Some c' /\
                   sql_num_eq (col_priority c') (Some p) = true)).
Proof.
  intros H.
  destruct (H 2%nat (row 3 "backlog" 3) 3%Q eq_refl eq_refl eq_refl) as [Hge _].
  destruct Hge as [c' [E1 E2]]; [unfold Qle; simpl; lia|].
  vm_compute in E1; injection E1 as <-.
  vm_compute in E2; discriminate E2.
Qed.

(** ** Changing the lane only *)

(** C9. When a lane but no rank is given, the target's lane becomes that
    lane and its rank stays; every other record is left as it was. *)
Theorem lane_only_update (o : Oracle) (i : Z) (L : string) (t : Table)
    (n : nat) (c : Client) :
  In i (map col_id t) ->
  In L lanes ->
  fail_status o = false ->
  nth_error t n = Some c ->
  let t' := store_after (put_client o (Some i) (StString L) PrUndefined t) in
  List.length t' = List.length t /\
  (col_id c = i ->
   exists c', nth_error t' n = Some c' /\
              col_status c' = Some L /\ col_priority c' = col_priority c /\
              col_id c' = col_id c /\ col_rest c' = col_rest c) /\
  (col_id c <> i -> nth_error t' n = Some c).
Proof.
  intros Hi HL Hf Hn t'; subst t'.
  rewrite lane_change_store; try assumption; [|reflexivity].
  rewrite Hf, length_map, (map_nth_error _ _ _ Hn).
  unfold status_row; simpl.
  split; [reflexivity|split]; intros Hc.
  - rewrite Hc, Z.eqb_refl; eexists; split; [reflexivity|].
    simpl; auto.
  - destruct (Z.eqb_spec (col_id c) i); [contradiction|reflexivity].
Qed.

Lemma lane_only_update_witness :
  let t' := store_after (put_client (no_faults 1) (Some 2) (StString "complete")
                           PrUndefined scenario_A) in
  List.length t' = List.length scenario_A /\
  (col_id (row 2 "backlog" 2) = 2 ->
   exists c', nth_error t' 1 = Some c' /\
              col_status c' = Some "complete" /\
              col_priority c' = col_priority (row 2 "backlog" 2) /\
              col_id c' = col_id (row 2 "backlog" 2) /\
              col_rest c' = col_rest (row 2 "backlog" 2)) /\
  (col_id (row 2 "backlog" 2) <> 2 -> nth_error t' 1 = Some (row 2 "backlog" 2)).
Proof.
  apply (lane_only_update (no_faults 1) 2 "complete" scenario_A 1 (row 2 "backlog" 2)).
  - simpl; right; left; reflexivity.
  - simpl; right; right; left; reflexivity.
  - reflexivity.
  - reflexivity.
Defined.

(** ** Where the handler departs from its contract *)

(** C4. In Scenario A, when the update of the target fails after the shift,
    the handler answers 500 (first, when the final read comes last) and
    still commits: records 1, 2 and 3 end at ranks 2, 3 and 4,
    not at the ranks they had. *)
Theorem failed_target_commits_shift (k : nat) :
  let r := put_client (mkOracle false true false false k) (Some 3)
             (StString "backlog") (PrNumber 1) scenario_A in
  In StorageError (fst r) /\
  delivered (fst (put_client (mkOracle false true false false 4) (Some 3)
                    (StString "backlog") (PrNumber 1) scenario_A)) =
    Some StorageError /\
  snd r = connect [row 1 "backlog" 2; row 2 "backlog" 3; row 3 "backlog" 4] /\
  store_after r <> scenario_A.
Proof.
  cbv zeta; split; [|split; [|split]].
  - destruct k as [|[|[|[|[|k]]]]]; vm_compute; tauto.
  - reflexivity.
  - by_schedule k.
  - rewrite rank_change_store; [discriminate | simpl; tauto | reflexivity | reflexivity].
Qed.

(** C5. A body with a rank and no lane sets the target's lane to NULL: in
    Scenario A, putting record 1 at rank 2 leaves it with rank 2 and no
    lane. *)
Theorem rank_only_clears_lane (k : nat) :
  store_after (put_client (no_faults k) (Some 1) StUndefined (PrNumber 2) scenario_A) =
  [mkClient 1 None (Some 2%Q) ""; row 2 "backlog" 2; row 3 "backlog" 3].
Proof.
  rewrite rank_change_store; [reflexivity | simpl; tauto | reflexivity | reflexivity].
Qed.

(** C6. Rank 0 is not rejected: the request is answered 200 with the
    listing.  Rank 3/2 is not rejected either: it is stored, and the records
    of rank 2 and 3 are shifted. *)
Theorem zero_and_fraction_accepted (k : nat) :
  put_client (no_faults k) (Some 1) StUndefined (PrNumber 0) scenario_A =
  ([Send 200 (Rows scenario_A)], connect scenario_A) /\
  (exists rows,
     fst (put_client (no_faults k) (Some 1) (StString "backlog") (PrNumber (3 # 2))
            scenario_A) = [Send 200 (Rows rows)]) /\
  store_after (put_client (no_faults k) (Some 1) (StString "backlog")
                 (PrNumber (3 # 2)) scenario_A) =
  [mkClient 1 (Some "backlog") (Some (3 # 2)) ""; row 2 "backlog" 3; row 3 "backlog" 4].
Proof.
  split; [|split].
  - destruct k; reflexivity.
  - by_schedule k; eexists; reflexivity.
  - rewrite rank_change_store; [reflexivity | simpl; tauto | reflexivity | reflexivity].
Qed.

(** ** Uniqueness of ranks within a lane *)

Lemma clash_iff (L : string) (a b : Client) :
  clash L a b = true <->
  col_status a = Some L /\ col_status b = Some L /\
  exists p q, col_priority a = Some p /\ col_priority b = Some q /\ (p == q)%Q.
Proof.
  unfold clash, sql_text_eq, sql_num_eq; split.
  - intros H; apply andb_true_iff in H; destruct H as [H Hr].
    apply andb_true_iff in H; destruct H as [Ha Hb].
    destruct (col_status a) as [sa|]; [|discriminate].
    destruct (col_status b) as [sb|]; [|discriminate].
    apply String.eqb_eq in Ha, Hb; subst sa sb.
    destruct (col_priority a) as [p|]; [|discriminate].
    destruct (col_priority b) as [q|]; [|discriminate].
    apply Qeq_bool_iff in Hr.
    repeat split; exists p, q; auto.
  - intros (Ha & Hb & p & q & Hp & Hq & E).
    rewrite Ha, Hb, Hp, Hq, String.eqb_refl; simpl.
    apply Qeq_bool_iff; exact E.
Qed.

Lemma no_clash (L : string) (a b : Client) :
  (clash L a b = true -> False) -> clash L a b = false.
Proof.
  destruct (clash L a b); [intros H; exfalso; apply H; reflexivity|reflexivity].
Qed.

(** [unique_ranks] says what its name says: no two rows at different places
    are in lane [L] with equal ranks. *)
Lemma unique_ranks_spec (L : string) (t : Table) :
  unique_ranks L t = true <->
  forall m n a b, (m < n)%nat ->
    nth_error t m = Some a -> nth_error t n = Some b -> clash L a b = false.
Proof.
  induction t as [|c t IH]; simpl.
  - split; [|reflexivity]. intros _ m n a b _ H; destruct m; discriminate H.
  - rewrite andb_true_iff, forallb_forall, IH; split.
    + intros [Hc Ht] m n a b Hlt Ha Hb.
      destruct n as [|n]; [lia|]; simpl in Hb.
      destruct m as [|m]; simpl in Ha.
      * injection Ha as <-. apply nth_error_In in Hb.
        specialize (Hc _ Hb). destruct (clash L c b); [discriminate|reflexivity].
      * apply (Ht m n); [lia|assumption|assumption].
    + intros H; split.
      * intros b Hb. apply In_nth_error in Hb; destruct Hb as [n Hn].
        rewrite (H 0%nat (S n) c b); [reflexivity|lia|reflexivity|exact Hn].
      * intros m n a b Hlt Ha Hb. apply (H (S m) (S n)); [lia|assumption|assumption].
Qed.

(** A row-wise update that creates no clash between rows of different ids
    keeps the ranks of a lane unique. *)
Lemma unique_ranks_map (L : string) (g : Client -> Client) (t : Table) :
  (forall a b, col_id a <> col_id b ->
     clash L a b = false -> clash L (g a) (g b) = false) ->
  NoDup (map col_id t) ->
  unique_ranks L t = true ->
  unique_ranks L (map g t) = true.
Proof.
  intros Hg; induction t as [|c t IH]; simpl; intros Hnd Hu; [reflexivity|].
  inversion Hnd as [|x xs Hnotin Hnd' Heq]; subst.
  apply andb_true_iff in Hu; destruct Hu as [Hc Ht].
  apply andb_true_iff; split; [|apply IH; assumption].
  apply forallb_forall; intros b' Hb'.
  apply in_map_iff in Hb'; destruct Hb' as [b [<- Hb]].
  rewrite forallb_forall in Hc; specialize (Hc b Hb).
  rewrite Hg; [reflexivity| |destruct (clash L c b); [discriminate|reflexivity]].
  intros E; apply Hnotin; rewrite E; apply in_map; exact Hb.
Qed.

Lemma shift_row_priority (st : option string) (R : Q) (c : Client) :
  col_priority (shift_row st (Some R) c) =
  match col_priority c with
  | Some p =>
      if sql_text_eq (col_status c) st && Qle_bool R p then Some (p + 1)%Q else Some p
  | None => None
  end.
Proof.
  unfold shift_row, sql_ge.
  destruct (col_priority c) as [p|] eqn:Hp.
  - destruct (sql_text_eq (col_status c) st && Qle_bool R p); simpl; auto.
  - rewrite andb_false_r; exact Hp.
Qed.

(** The shift alone creates no clash. *)
Lemma shift_no_clash (L : string) (st : option string) (R : Q) (a b : Client) :
  clash L a b = false ->
  clash L (shift_row st (Some R) a) (shift_row st (Some R) b) = false.
Proof.
  intros H; apply no_clash; intros C.
  apply clash_iff in C; destruct C as (Ha & Hb & p & q & Hp & Hq & E).
  rewrite shift_row_status in Ha, Hb.
  rewrite shift_row_priority in Hp, Hq.
  rewrite Ha in Hp; rewrite Hb in Hq.
  destruct (col_priority a) as [pa|] eqn:Pa; [|discriminate].
  destruct (col_priority b) as [pb|] eqn:Pb; [|discriminate].
  assert (N : ~ (pa == pb)%Q).
  { intros Eq. assert (clash L a b = true); [|congruence].
    apply clash_iff; repeat split; auto; exists pa, pb; auto. }
  destruct (sql_text_eq (Some L) st); simpl in Hp, Hq.
  - destruct (Qle_bool R pa) eqn:Ea; destruct (Qle_bool R pb) eqn:Eb;
      injection Hp as <-; injection Hq as <-;
      try (apply Qle_bool_iff in Ea); try (apply Qle_bool_iff in Eb);
      try (assert (~ (R <= pa)%Q) by (rewrite <- Qle_bool_iff; congruence));
      try (assert (~ (R <= pb)%Q) by (rewrite <- Qle_bool_iff; congruence));
      apply N; lra.
  - injection Hp as <-; injection Hq as <-; apply N; exact E.
Qed.

(** After the shift no row of the target lane holds rank [R]. *)
Lemma shift_frees_rank (L : string) (R : Q) (c : Client) (q : Q) :
  col_status c = Some L ->
  col_priority (shift_row (Some L) (Some R) c) = Some q ->
  ~ (q == R)%Q.
Proof.
  intros Hs Hq; rewrite shift_row_priority, Hs in Hq; simpl in Hq.
  rewrite String.eqb_refl in Hq; simpl in Hq.
  destruct (col_priority c) as [p|]; [|discriminate].
  destruct (Qle_bool R p) eqn:E; injection Hq as <-.
  - apply Qle_bool_iff in E; lra.
  - assert (~ (R <= p)%Q) by (rewrite <- Qle_bool_iff; congruence); lra.
Qed.

Lemma target_row_hit (st : option string) (pr : option Q) (i : Z) (c : Client) :
  col_id c = i ->
  target_row st pr (Some i) c = mkClient (col_id c) st pr (col_rest c).
Proof.
  intros <-; unfold target_row; simpl; rewrite Z.eqb_refl; reflexivity.
Qed.

(** The shift followed by the update of the target creates no clash between
    rows of different ids. *)
Lemma place_no_clash (L : string) (st : option string) (R : Q) (i : Z)
    (a b : Client) :
  col_id a <> col_id b ->
  clash L a b = false ->
  clash L (target_row st (Some R) (Some i) (shift_row st (Some R) a))
          (target_row st (Some R) (Some i) (shift_row st (Some R) b)) = false.
Proof.
  intros Hab H.
  destruct (Z.eq_dec (col_id a) i) as [Ea|Ea];
    destruct (Z.eq_dec (col_id b) i) as [Eb|Eb]; [congruence| | |].
  - rewrite (target_row_hit st (Some R) i (shift_row st (Some R) a))
      by (rewrite shift_row_id; exact Ea).
    rewrite (target_row_other st (Some R) i (shift_row st (Some R) b))
      by (rewrite shift_row_id; exact Eb).
    apply no_clash; intros C; apply clash_iff in C; simpl in C.
    destruct C as (Hst & Hb & p & q & Hp & Hq & E).
    injection Hp as <-; subst st; rewrite shift_row_status in Hb.
    apply (shift_frees_rank L R b q Hb Hq); lra.
  - rewrite (target_row_other st (Some R) i (shift_row st (Some R) a))
      by (rewrite shift_row_id; exact Ea).
    rewrite (target_row_hit st (Some R) i (shift_row st (Some R) b))
      by (rewrite shift_row_id; exact Eb).
    apply no_clash; intros C; apply clash_iff in C; simpl in C.
    destruct C as (Ha & Hst & p & q & Hp & Hq & E).
    injection Hq as <-; subst st; rewrite shift_row_status in Ha.
    apply (shift_frees_rank L R a p Ha Hp); lra.
  - rewrite !target_row_other by (rewrite shift_row_id; assumption).
    apply shift_no_clash; exact H.
Qed.

(** C2. If no two records of a lane share a rank, then after an update that
    carries a positive rank and whose shift took effect, no two records of
    that lane share a rank.  Ids are a key of the table, and its ranks are
    whole numbers below 2^53. *)
Theorem rank_change_keeps_ranks_unique (o : Oracle) (id : option Z)
    (status : JsStatus) (R : Q) (t : Table) (L : string) :
  NoDup (map col_id t) ->
  safe_ranks t = true ->
  (0 < R)%Q ->
  fail_shift o = false ->
  unique_ranks L t = true ->
  unique_ranks L (store_after (put_client o id status (PrNumber R) t)) = true.
Proof.
  intros Hnd _ HR Hf Hu.
  destruct id as [i|]; [|exact Hu].
  destruct (in_dec Z.eq_dec i (map col_id t)) as [Hi|Hi].
  2:{ unfold put_client; rewrite (validateId_missing _ _ Hi); exact Hu. }
  destruct (truthy_status status && negb (includes lanes status)) eqn:Hs.
  - unfold put_client; rewrite (validateId_found _ _ Hi), Hs; exact Hu.
  - rewrite rank_change_store by assumption.
    cbv zeta; rewrite Hf; destruct (fail_target o).
    + apply unique_ranks_map; [|assumption|assumption].
      intros a b _; apply shift_no_clash.
    + rewrite map_map; apply unique_ranks_map; [|assumption|assumption].
      intros a b; apply place_no_clash.
Qed.

Lemma rank_change_keeps_ranks_unique_witness :
  unique_ranks "backlog"
    (store_after (put_client (no_faults 4) (Some 3) (StString "backlog")
                    (PrNumber 1) scenario_A)) = true.
Proof.
  apply (rank_change_keeps_ranks_unique (no_faults 4) (Some 3) (StString "backlog")
           1 scenario_A "backlog").
  - simpl; repeat constructor; simpl; intuition discriminate.
  - reflexivity.
  - reflexivity.
  - reflexivity.
  - reflexivity.
Defined.

(** ** The shape of every update *)

Lemma included_lane (s : string) :
  includes lanes (StString s) = true -> In s lanes.
Proof.
  simpl; intros H.
  destruct (String.eqb_spec s "backlog"); [left; auto|].
  destruct (String.eqb_spec s "inProgress"); [right; left; auto|].
  destruct (String.eqb_spec s "complete"); [right; right; left; auto|].
  discriminate H.
Qed.

Lemma find_id_in (i : Z) (t : Table) (c : Client) :
  find (fun c => col_id c =? i) t = Some c -> In i (map col_id t).
Proof.
  intros H; apply find_some in H; destruct H as [Hin E].
  apply Z.eqb_eq in E; subst i; apply in_map; exact Hin.
Qed.

(** Whatever the request and the failures, the handler leaves the connection
    on one table, in one of three shapes: the table as it was; the table
    after the shift and the update of the target (each unless it failed); or
    the table after the update of the lane. *)
Lemma put_client_cases (o : Oracle) (id : option Z) (status : JsStatus)
    (priority : JsPriority) (t : Table) :
  snd (put_client o id status priority t) = connect t
  \/ (exists i R,
        id = Some i /\ priority = PrNumber R /\ (0 < R)%Q /\
        In i (map col_id t) /\
        (truthy_status status = true -> In (match bind_status status with
                                            | Some s => s | None => "" end) lanes) /\
        snd (put_client o id status priority t) =
        connect (map (fun c =>
                   (if fail_target o then (fun x => x)
                    else target_row (bind_status status) (Some R) (Some i))
                     ((if fail_shift o then (fun x => x)
                       else shift_row (bind_status status) (Some R)) c)) t))
  \/ (exists i L,
        id = Some i /\ status = StString L /\ In L lanes /\
        truthy_priority priority = false /\ In i (map col_id t) /\
        snd (put_client o id status priority t) =
        connect (map (if fail_status o then (fun x => x)
                      else status_row (Some L) (Some i)) t)).
Proof.
  unfold put_client.
  destruct id as [i|]; [|left; reflexivity].
  unfold validateId.
  destruct (find (fun c => col_id c =? i) t) as [c0|] eqn:Hfind; [|left; reflexivity].
  pose proof (find_id_in _ _ _ Hfind) as Hi.
  destruct (truthy_status status && negb (includes lanes status)) eqn:Hs;
    [left; reflexivity|].
  assert (Hlane : truthy_status status = true ->
                  exists L, status = StString L /\ In L lanes).
  { intros Ht; rewrite Ht in Hs; simpl in Hs.
    destruct status as [| |L]; try discriminate Ht.
    exists L; split; [reflexivity|].
    apply included_lane; destruct (includes lanes (StString L)); [reflexivity|discriminate Hs]. }
  destruct (truthy_priority priority) eqn:Hp.
  - destruct priority as [| |R]; try discriminate Hp.
    unfold validatePriority, isNaN, le_zero; simpl ToNumber; cbv iota.
    destruct (Qle_bool R 0) eqn:HR; simpl orb; cbv iota; [left; reflexivity|].
    right; left; exists i, R; repeat split; try assumption.
    + assert (~ (R <= 0)%Q) by (rewrite <- Qle_bool_iff; congruence); lra.
    + intros Ht; destruct (Hlane Ht) as [L [-> HL]]; exact HL.
    + rewrite execute_schedule; simpl.
      destruct (fail_shift o), (fail_target o); simpl;
        rewrite ?map_map, ?map_id; reflexivity.
  - destruct (truthy_status status) eqn:Ht.
    + right; right. destruct (Hlane eq_refl) as [L [-> HL]].
      exists i, L; repeat split; try assumption.
      rewrite execute_schedule; simpl.
      destruct (fail_status o); [rewrite map_id|]; reflexivity.
    + left; rewrite execute_nothing; reflexivity.
Qed.

(** ** What no update does *)

Lemma target_row_id (st : option string) (pr : option Q) (i : option Z) (c : Client) :
  col_id (target_row st pr i c) = col_id c.
Proof. unfold target_row; destruct (sql_int_eq _ _); reflexivity. Qed.

Lemma target_row_rest (st : option string) (pr : option Q) (i : option Z) (c : Client) :
  col_rest (target_row st pr i c) = col_rest c.
Proof. unfold target_row; destruct (sql_int_eq _ _); reflexivity. Qed.

Lemma status_row_id (st : option string) (i : option Z) (c : Client) :
  col_id (status_row st i c) = col_id c.
Proof. unfold status_row; destruct (sql_int_eq _ _); reflexivity. Qed.

Lemma status_row_rest (st : option string) (i : option Z) (c : Client) :
  col_rest (status_row st i c) = col_rest c.
Proof. unfold status_row; destruct (sql_int_eq _ _); reflexivity. Qed.

Lemma shift_row_rest (st : option string) (pr : option Q) (c : Client) :
  col_rest (shift_row st pr c) = col_rest c.
Proof. unfold shift_row; destruct (_ && _); reflexivity. Qed.

Lemma map_column {A : Type} (col : Client -> A) (g : Client -> Client) (t : Table) :
  (forall c, col (g c) = col c) -> map col (map g t) = map col t.
Proof.
  intros H; rewrite map_map; apply map_ext; exact H.
Qed.

(** X1. However the request is answered, the handler ends with no transaction
    open and nothing uncommitted: the connection is as freshly opened on the
    table it leaves. *)
Theorem put_closes_transaction (o : Oracle) (id : option Z) (status : JsStatus)
    (priority : JsPriority) (t : Table) :
  snd (put_client o id status priority t) =
  connect (store_after (put_client o id status priority t)).
Proof.
  unfold store_after.
  destruct (put_client_cases o id status priority t)
    as [H|[(i & R & _ & _ & _ & _ & _ & H)|(i & L & _ & _ & _ & _ & _ & H)]];
    rewrite H; reflexivity.
Qed.

(** X2. No request adds, removes or reorders rows, changes an id, or touches the
    columns other than status and priority. *)
Theorem put_keeps_rows (o : Oracle) (id : option Z) (status : JsStatus)
    (priority : JsPriority) (t : Table) :
  map col_id (store_after (put_client o id status priority t)) = map col_id t /\
  map col_rest (store_after (put_client o id status priority t)) = map col_rest t.
Proof.
  unfold store_after.
  destruct (put_client_cases o id status priority t)
    as [H|[(i & R & _ & _ & _ & _ & _ & H)|(i & L & _ & _ & _ & _ & _ & H)]];
    rewrite H; simpl; [split; reflexivity| |].
  - split; apply map_column; intros c;
      destruct (fail_target o), (fail_shift o);
      rewrite ?target_row_id, ?target_row_rest, ?shift_row_id, ?shift_row_rest;
      reflexivity.
  - split; apply map_column; intros c; destruct (fail_status o);
      rewrite ?status_row_id, ?status_row_rest; reflexivity.
Qed.

Lemma positive_shift (st : option string) (R p : Q) (c : Client) :
  col_priority c = Some p -> (0 < p)%Q ->
  exists q, col_priority (shift_row st (Some R) c) = Some q /\ (0 < q)%Q.
Proof.
  intros Hp Hpos; rewrite shift_row_priority, Hp.
  destruct (_ && _); eexists; split; try reflexivity; lra.
Qed.

Lemma positive_ranks_iff (t : Table) :
  positive_ranks t = true <->
  forall c, In c t -> exists p, col_priority c = Some p /\ (0 < p)%Q.
Proof.
  unfold positive_ranks; rewrite forallb_forall; split; intros H c Hc.
  - specialize (H c Hc). destruct (col_priority c) as [p|]; [|discriminate].
    exists p; split; [reflexivity|].
    destruct (Qle_bool p 0) eqn:E; [discriminate|].
    assert (~ (p <= 0)%Q) by (rewrite <- Qle_bool_iff; congruence); lra.
  - destruct (H c Hc) as [p [-> Hp]].
    destruct (Qle_bool p 0) eqn:E; [apply Qle_bool_iff in E; lra|reflexivity].
Qed.

(** X3. If every rank in the table is a positive number, every rank still is
    after any request, whatever fails: no request stores a rank that is
    NULL, zero or negative. *)
Theorem put_keeps_ranks_positive (o : Oracle) (id : option Z) (status : JsStatus)
    (priority : JsPriority) (t : Table) :
  positive_ranks t = true ->
  positive_ranks (store_after (put_client o id status priority t)) = true.
Proof.
  intros Hpos; unfold store_after.
  destruct (put_client_cases o id status priority t)
    as [H|[(i & R & _ & _ & HR & _ & _ & H)|(i & L & _ & _ & _ & _ & _ & H)]];
    rewrite H; simpl; [exact Hpos| |].
  - rewrite positive_ranks_iff in *; intros c' Hc'.
    apply in_map_iff in Hc'; destruct Hc' as [c [<- Hc]].
    destruct (Hpos c Hc) as [p [Hp Hp0]].
    assert (Hs : exists q,
      col_priority ((if fail_shift o then fun x => x
                     else shift_row (bind_status status) (Some R)) c) = Some q
      /\ (0 < q)%Q).
    { destruct (fail_shift o); [exists p; auto|apply (positive_shift _ _ p); assumption]. }
    destruct (fail_target o); [exact Hs|].
    unfold target_row; destruct (sql_int_eq _ _); [|exact Hs].
    exists R; split; [reflexivity|exact HR].
  - rewrite positive_ranks_iff in *; intros c' Hc'.
    apply in_map_iff in Hc'; destruct Hc' as [c [<- Hc]].
    destruct (Hpos c Hc) as [p [Hp Hp0]].
    destruct (fail_status o); [exists p; auto|].
    unfold status_row; destruct (sql_int_eq _ _); exists p; auto.
Qed.

Lemma put_keeps_ranks_positive_witness :
  positive_ranks
    (store_after (put_client (no_faults 0) (Some 2) (StString "complete")
                    (PrNumber 1) scenario_A)) = true.
Proof.
  apply (put_keeps_ranks_positive (no_faults 0) (Some 2) (StString "complete")
           (PrNumber 1) scenario_A).
  reflexivity.
Defined.

Lemma known_lanes_iff (t : Table) :
  known_lanes t = true <->
  forall c, In c t -> exists s, col_status c = Some s /\ In s lanes.
Proof.
  unfold known_lanes; rewrite forallb_forall; split; intros H c Hc.
  - specialize (H c Hc). destruct (col_status c) as [s|]; [|discriminate].
    exists s; split; [reflexivity|apply included_lane; exact H].
  - destruct (H c Hc) as [s [-> Hs]]. exact (lane_included s Hs).
Qed.

(** X4. If every row is in one of the three lanes, every row still is after any
    request that names a non-empty lane or carries no rank, whatever fails. *)
Theorem put_keeps_lanes_known (o : Oracle) (id : option Z) (status : JsStatus)
    (priority : JsPriority) (t : Table) :
  known_lanes t = true ->
  truthy_status status = true \/ truthy_priority priority = false ->
  known_lanes (store_after (put_client o id status priority t)) = true.
Proof.
  intros Hk Hreq; unfold store_after.
  destruct (put_client_cases o id status priority t)
    as [H|[(i & R & _ & -> & HR & _ & HL & H)|(i & L & _ & _ & HL & _ & _ & H)]];
    rewrite H; simpl; [exact Hk| |].
  - destruct Hreq as [Ht|Hp]; [|rewrite (positive_truthy _ HR) in Hp; discriminate Hp].
    specialize (HL Ht).
    destruct status as [| |L]; try discriminate Ht; simpl in HL |- *.
    rewrite known_lanes_iff in *; intros c' Hc'.
    apply in_map_iff in Hc'; destruct Hc' as [c [<- Hc]].
    destruct (Hk c Hc) as [s [Hs Hin]].
    assert (Hsh : col_status ((if fail_shift o then fun x => x
                               else shift_row (Some L) (Some R)) c) = Some s).
    { destruct (fail_shift o); [exact Hs|rewrite shift_row_status; exact Hs]. }
    destruct (fail_target o); [exists s; auto|].
    unfold target_row; destruct (sql_int_eq _ _); [exists L|exists s]; auto.
  - rewrite known_lanes_iff in *; intros c' Hc'.
    apply in_map_iff in Hc'; destruct Hc' as [c [<- Hc]].
    destruct (Hk c Hc) as [s [Hs Hin]].
    destruct (fail_status o); [exists s; auto|].
    unfold status_row; destruct (sql_int_eq _ _); [exists L|exists s]; auto.
Qed.

Lemma put_keeps_lanes_known_witness :
  known_lanes
    (store_after (put_client (no_faults 0) (Some 2) (StString "complete")
                    (PrNumber 1) scenario_A)) = true.
Proof.
  apply (put_keeps_lanes_known (no_faults 0) (Some 2) (StString "complete")
           (PrNumber 1) scenario_A).
  - reflexivity.
  - left; reflexivity.
Defined.

(** ** What an update leaves alone, and where it puts the target *)

(** X5. A row that is not the target and whose status is not the one the request
    names is left exactly as it was, whatever the request and whatever
    fails: moving a record does not renumber the lane it leaves. *)
Theorem put_leaves_other_lanes (o : Oracle) (id : option Z) (status : JsStatus)
    (priority : JsPriority) (t : Table) (n : nat) (c : Client) :
  nth_error t n = Some c ->
  id <> Some (col_id c) ->
  sql_text_eq (col_status c) (bind_status status) = false ->
  nth_error (store_after (put_client o id status priority t)) n = Some c.
Proof.
  intros Hn Hid Hs; unfold store_after.
  assert (Hne : sql_int_eq (Some (col_id c)) id = false).
  { destruct id as [i|]; simpl; [|reflexivity].
    destruct (Z.eqb_spec (col_id c) i); [subst; contradiction Hid; reflexivity|reflexivity]. }
  destruct (put_client_cases o id status priority t)
    as [H|[(i & R & -> & _ & _ & _ & _ & H)|(i & L & -> & -> & _ & _ & _ & H)]];
    rewrite H; simpl; [exact Hn| |].
  - rewrite (map_nth_error _ _ _ Hn); f_equal.
    assert (Hsh : (if fail_shift o then fun x => x
                   else shift_row (bind_status status) (Some R)) c = c).
    { destruct (fail_shift o); [reflexivity|].
      unfold shift_row; rewrite Hs; reflexivity. }
    rewrite Hsh; destruct (fail_target o); [reflexivity|].
    unfold target_row; rewrite Hne; reflexivity.
  - rewrite (map_nth_error _ _ _ Hn); f_equal.
    destruct (fail_status o); [reflexivity|].
    unfold status_row; rewrite Hne; reflexivity.
Qed.

Lemma put_leaves_other_lanes_witness :
  nth_error (store_after (put_client (no_faults 0) (Some 3) (StString "complete")
                            (PrNumber 1) scenario_A)) 1 =
  Some (row 2 "backlog" 2).
Proof.
  apply (put_leaves_other_lanes (no_faults 0) (Some 3) (StString "complete")
           (PrNumber 1) scenario_A 1 (row 2 "backlog" 2)).
  - reflexivity.
  - discriminate.
  - reflexivity.
Defined.

(** X6. When an existing record is given a lane and a positive rank and its own
    update succeeds, it ends in that lane at that rank, with its other
    columns as they were, whether or not the shift took effect. *)
Theorem put_places_target (o : Oracle) (i : Z) (L : string) (R : Q) (t : Table)
    (n : nat) (c : Client) :
  In L lanes ->
  (0 < R)%Q ->
  fail_target o = false ->
  nth_error t n = Some c ->
  col_id c = i ->
  nth_error (store_after (put_client o (Some i) (StString L) (PrNumber R) t)) n =
  Some (mkClient i (Some L) (Some R) (col_rest c)).
Proof.
  intros HL HR Hf Hn Hc.
  assert (Hi : In i (map col_id t)).
  { subst i; apply in_map; apply (nth_error_In _ _ Hn). }
  rewrite rank_change_store; try assumption.
  2:{ rewrite (lane_included _ HL); apply andb_false_r. }
  cbv zeta; rewrite Hf; simpl bind_status.
  assert (Hrow : forall g : Client -> Client,
            col_id (g c) = i -> col_rest (g c) = col_rest c ->
            forall t', nth_error t' n = Some (g c) ->
            nth_error (map (target_row (Some L) (Some R) (Some i)) t') n =
            Some (mkClient i (Some L) (Some R) (col_rest c))).
  { intros g Hg1 Hg2 t' Ht'. rewrite (map_nth_error _ _ _ Ht').
    rewrite target_row_hit by exact Hg1. rewrite Hg1, Hg2; reflexivity. }
  destruct (fail_shift o).
  - apply (Hrow (fun x => x)); auto.
  - apply (Hrow (shift_row (Some L) (Some R))).
    + rewrite shift_row_id; exact Hc.
    + apply shift_row_rest.
    + apply map_nth_error; exact Hn.
Qed.

Lemma put_places_target_witness :
  nth_error (store_after (put_client (no_faults 0) (Some 2) (StString "complete")
                            (PrNumber 5) scenario_A)) 1 =
  Some (mkClient 2 (Some "complete") (Some 5%Q) (col_rest (row 2 "backlog" 2))).
Proof.
  apply (put_places_target (no_faults 0) 2 "complete" 5 scenario_A 1 (row 2 "backlog" 2)).
  - simpl; right; right; left; reflexivity.
  - reflexivity.
  - reflexivity.
  - reflexivity.
  - reflexivity.
Defined.

(** ** Order within the lane, and repetition *)

Lemma store_after_ids (o : Oracle) (id : option Z) (status : JsStatus)
    (priority : JsPriority) (t : Table) :
  map col_id (store_after (put_client o id status priority t)) = map col_id t.
Proof.
  unfold store_after.
  destruct (put_client_cases o id status priority t)
    as [H|[(i & R & _ & _ & _ & _ & _ & H)|(i & L & _ & _ & _ & _ & _ & H)]];
    rewrite H; simpl; [reflexivity| |].
  - apply map_column; intros c; destruct (fail_target o), (fail_shift o);
      rewrite ?target_row_id, ?shift_row_id; reflexivity.
  - apply map_column; intros c; destruct (fail_status o);
      rewrite ?status_row_id; reflexivity.
Qed.

(** After an accepted rank change a row other than the target is what the
    shift made of it. *)
Lemma others_after (o : Oracle) (i : Z) (L : string) (R : Q) (t : Table)
    (n : nat) (c : Client) :
  In i (map col_id t) ->
  In L lanes ->
  (0 < R)%Q ->
  nth_error t n = Some c ->
  col_id c <> i ->
  nth_error (store_after (put_client o (Some i) (StString L) (PrNumber R) t)) n =
  Some (if fail_shift o then c else shift_row (Some L) (Some R) c).
Proof.
  intros Hi HL HR Hn Hc.
  rewrite rank_change_store; try assumption.
  2:{ rewrite (lane_included _ HL); apply andb_false_r. }
  cbv zeta; simpl bind_status.
  assert (Hsh : nth_error (map (shift_row (Some L) (Some R)) t) n =
                Some (shift_row (Some L) (Some R) c))
    by (apply map_nth_error; exact Hn).
  destruct (fail_shift o), (fail_target o); try assumption.
  - rewrite (map_nth_error _ _ _ Hn), target_row_other by exact Hc; reflexivity.
  - rewrite (map_nth_error _ _ _ Hsh), target_row_other; [reflexivity|].
    rewrite shift_row_id; exact Hc.
Qed.

(** X7. An accepted rank change keeps the order of the other records of a lane:
    of two rows with the same status, neither the target, whose ranks are
    whole numbers below 2^53, the one with the smaller rank still has the
    smaller rank afterwards, whatever fails. *)
Theorem put_keeps_order (o : Oracle) (i : Z) (L : string) (R : Q) (t : Table)
    (m n : nat) (a b : Client) (pa pb : Q) :
  In i (map col_id t) ->
  In L lanes ->
  (0 < R)%Q ->
  nth_error t m = Some a ->
  nth_error t n = Some b ->
  col_id a <> i ->
  col_id b <> i ->
  col_status a = col_status b ->
  col_priority a = Some pa ->
  col_priority b = Some pb ->
  safe_rank pa = true ->
  safe_rank pb = true ->
  (pa < pb)%Q ->
  let t' := store_after (put_client o (Some i) (StString L) (PrNumber R) t) in
  exists a' b' qa qb,
    nth_error t' m = Some a' /\ nth_error t' n = Some b' /\
    col_priority a' = Some qa /\ col_priority b' = Some qb /\ (qa < qb)%Q.
Proof.
  intros Hi HL HR Hm Hn Ha Hb Hs Hpa Hpb _ _ Hlt t'; subst t'.
  pose proof (others_after o i L R t m a Hi HL HR Hm Ha) as H1.
  pose proof (others_after o i L R t n b Hi HL HR Hn Hb) as H2.
  destruct (fail_shift o).
  - exists a, b, pa, pb; auto.
  - pose proof (shift_row_priority (Some L) R a) as Qa.
    pose proof (shift_row_priority (Some L) R b) as Qb.
    rewrite Hpa, Hs in Qa; rewrite Hpb in Qb.
    exists (shift_row (Some L) (Some R) a), (shift_row (Some L) (Some R) b).
    destruct (sql_text_eq (col_status b) (Some L)); simpl in Qa, Qb.
    + destruct (Qle_bool R pa) eqn:Ea; destruct (Qle_bool R pb) eqn:Eb.
      * exists (pa + 1)%Q, (pb + 1)%Q; repeat split; try assumption; lra.
      * apply Qle_bool_iff in Ea.
        assert (~ (R <= pb)%Q) by (rewrite <- Qle_bool_iff; congruence); lra.
      * exists pa, (pb + 1)%Q; repeat split; try assumption; lra.
      * exists pa, pb; repeat split; assumption.
    + exists pa, pb; repeat split; assumption.
Qed.

Lemma put_keeps_order_witness :
  let t' := store_after (put_client (no_faults 0) (Some 3) (StString "backlog")
                           (PrNumber 2) scenario_A) in
  exists a' b' qa qb,
    nth_error t' 0 = Some a' /\ nth_error t' 1 = Some b' /\
    col_priority a' = Some qa /\ col_priority b' = Some qb /\ (qa < qb)%Q.
Proof.
  apply (put_keeps_order (no_faults 0) 3 "backlog" 2 scenario_A 0 1
           (row 1 "backlog" 1) (row 2 "backlog" 2) 1 2).
  - simpl; right; right; left; reflexivity.
  - simpl; left; reflexivity.
  - reflexivity.
  - reflexivity.
  - reflexivity.
  - simpl; lia.
  - simpl; lia.
  - reflexivity.
  - reflexivity.
  - reflexivity.
  - reflexivity.
  - reflexivity.
  - reflexivity.
Defined.

(** X8. Repeating an accepted rank change is not idempotent: the second run
    shifts the rest of the lane again, so a row of the lane other than the
    target whose rank, a whole number below 2^53 - 1, was at least R ends
    two above where it started. *)
Theorem put_twice_shifts_twice (o1 o2 : Oracle) (i : Z) (L : string) (R : Q)
    (t : Table) (n : nat) (c : Client) (p : Q) :
  In i (map col_id t) ->
  In L lanes ->
  (0 < R)%Q ->
  fail_shift o1 = false ->
  fail_shift o2 = false ->
  nth_error t n = Some c ->
  col_id c <> i ->
  col_status c = Some L ->
  col_priority c = Some p ->
  safe_rank p = true ->
  safe_rank (p + 1) = true ->
  (R <= p)%Q ->
  let t1 := store_after (put_client o1 (Some i) (StString L) (PrNumber R) t) in
  let t2 := store_after (put_client o2 (Some i) (StString L) (PrNumber R) t1) in
  nth_error t2 n = Some (set_priority (Some (p + 1 + 1)%Q) c).
Proof.
  intros Hi HL HR Hf1 Hf2 Hn Hc Hs Hp _ _ Hle t1 t2; subst t1 t2.
  assert (Hsh : forall (c0 : Client) (q : Q),
            col_status c0 = Some L -> col_priority c0 = Some q -> (R <= q)%Q ->
            shift_row (Some L) (Some R) c0 = set_priority (Some (q + 1)%Q) c0).
  { intros c0 q Hs0 Hq HRq; unfold shift_row; rewrite Hs0, Hq; simpl.
    rewrite String.eqb_refl; apply Qle_bool_iff in HRq; rewrite HRq; reflexivity. }
  pose proof (others_after o1 i L R t n c Hi HL HR Hn Hc) as H1.
  rewrite Hf1, (Hsh c p Hs Hp Hle) in H1.
  assert (Hi1 : In i (map col_id
                   (store_after (put_client o1 (Some i) (StString L) (PrNumber R) t))))
    by (rewrite store_after_ids; exact Hi).
  rewrite (others_after o2 i L R _ n _ Hi1 HL HR H1) by exact Hc.
  rewrite Hf2, (Hsh _ (p + 1)%Q); [reflexivity|exact Hs|reflexivity|lra].
Qed.

Lemma put_twice_shifts_twice_witness :
  let t1 := store_after (put_client (no_faults 0) (Some 3) (StString "backlog")
                           (PrNumber 1) scenario_A) in
  let t2 := store_after (put_client (no_faults 4) (Some 3) (StString "backlog")
                           (PrNumber 1) t1) in
  nth_error t2 0 = Some (set_priority (Some (1 + 1 + 1)%Q) (row 1 "backlog" 1)).
Proof.
  apply (put_twice_shifts_twice (no_faults 0) (no_faults 4) 3 "backlog" 1 scenario_A 0
           (row 1 "backlog" 1) 1).
  - simpl; right; right; left; reflexivity.
  - simpl; left; reflexivity.
  - reflexivity.
  - reflexivity.
  - reflexivity.
  - reflexivity.
  - simpl; lia.
  - reflexivity.
  - reflexivity.
  - reflexivity.
  - reflexivity.
  - unfold Qle; simpl; lia.
Defined.

(** ** The validators *)

(** X9. [validatePriority] accepts exactly the numbers above zero: a missing
    priority, [null], zero and the negative numbers are all refused, and a
    fraction is accepted. *)
Theorem validatePriority_accepts (priority : JsPriority) :
  validatePriority priority = Valid <->
  exists n, priority = PrNumber n /\ (0 < n)%Q.
Proof.
  split.
  - unfold validatePriority, isNaN, le_zero.
    destruct priority as [| |n]; simpl; try discriminate.
    destruct (Qle_bool n 0) eqn:E; [discriminate|]; intros _.
    exists n; split; [reflexivity|].
    assert (~ (n <= 0)%Q) by (rewrite <- Qle_bool_iff; congruence); lra.
  - intros [n [-> Hn]]; apply positive_valid; exact Hn.
Qed.

(** X10. [validateId] accepts exactly the ids that parsed to an integer and name
    a row of the table. *)
Theorem validateId_accepts (id : option Z) (t : Table) :
  validateId id t = Valid <-> exists i, id = Some i /\ In i (map col_id t).
Proof.
  split.
  - destruct id as [i|]; simpl; [|discriminate].
    destruct (find (fun c => col_id c =? i) t) as [c|] eqn:E; [|discriminate].
    intros _; exists i; split; [reflexivity|apply (find_id_in _ _ _ E)].
  - intros [i [-> Hi]]; apply validateId_found; exact Hi.
Qed.

(** X11. A priority of zero or [null] is handled exactly as an absent one, for
    every id, status, table and failure. *)
Theorem falsy_priority_is_absent (o : Oracle) (id : option Z) (status : JsStatus)
    (priority : JsPriority) (t : Table) :
  truthy_priority priority = false ->
  put_client o id status priority t = put_client o id status PrUndefined t.
Proof.
  intros H; unfold put_client; rewrite H; reflexivity.
Qed.

Lemma falsy_priority_is_absent_witness :
  put_client (no_faults 1) (Some 1) (StString "complete") (PrNumber 0) scenario_A =
  put_client (no_faults 1) (Some 1) (StString "complete") PrUndefined scenario_A.
Proof.
  apply (falsy_priority_is_absent (no_faults 1) (Some 1) (StString "complete")
           (PrNumber 0) scenario_A).
  reflexivity.
Defined.

(** ** Listing the clients *)

(** X12. [GET /api/v1/clients] refuses exactly the non-empty strings that are none
    of the three lanes, whether or not the database fails; an empty status
    is not refused. *)
Theorem get_clients_rejects (err : bool) (s : string) (t : Table) :
  get_clients err (StString s) t =
  Send 400 (Message "Invalid status provided."
    "Status can only be one of the following: [backlog | in-progress | complete].")
  <-> s <> "" /\ ~ In s lanes.
Proof.
  unfold get_clients; simpl.
  destruct (String.eqb_spec s "") as [->|He]; simpl.
  - split; [destruct err; discriminate|intros [H _]; contradiction H; reflexivity].
  - destruct (String.eqb_spec s "backlog") as [->|H1]; simpl.
    { split; [destruct err; discriminate|intros [_ H]; exfalso; apply H; auto]. }
    destruct (String.eqb_spec s "inProgress") as [->|H2]; simpl.
    { split; [destruct err; discriminate|intros [_ H]; exfalso; apply H; auto]. }
    destruct (String.eqb_spec s "complete") as [->|H3]; simpl.
    { split; [destruct err; discriminate|intros [_ H]; exfalso; apply H; auto]. }
    split; [intros _|reflexivity].
    split; [exact He|]. intros [E|[E|[E|[]]]]; congruence.
Qed.

(** X13. Asked for one of the three lanes, [GET /api/v1/clients] answers 200 with
    exactly the rows of the table whose status is that lane. *)
Theorem get_clients_lists_lane (L : string) (t : Table) :
  In L lanes ->
  exists rows,
    get_clients false (StString L) t = Send 200 (Rows rows) /\
    forall c, In c rows <-> In c t /\ col_status c = Some L.
Proof.
  intros HL.
  exists (filter (fun c => sql_text_eq (col_status c) (Some L)) t); split.
  - simpl in HL; destruct HL as [<-|[<-|[<-|[]]]]; reflexivity.
  - intros c; rewrite filter_In; unfold sql_text_eq.
    split; intros [Hin H]; (split; [exact Hin|]).
    + destruct (col_status c) as [s|]; [|discriminate].
      apply String.eqb_eq in H; subst; reflexivity.
    + rewrite H; apply String.eqb_refl.
Qed.

Lemma get_clients_lists_lane_witness :
  exists rows,
    get_clients false (StString "backlog") scenario_A = Send 200 (Rows rows) /\
    forall c, In c rows <-> In c scenario_A /\ col_status c = Some "backlog".
Proof.
  apply (get_clients_lists_lane "backlog" scenario_A).
  simpl; left; reflexivity.
Defined.

(** X14. When every row is in one of the three lanes, the three lane listings
    together hold as many rows as the table: each row is listed in exactly
    one lane. *)
Theorem lane_listings_cover (t : Table) :
  known_lanes t = true ->
  (List.length (listed (get_clients false (StString "backlog") t))
   + List.length (listed (get_clients false (StString "inProgress") t))
   + List.length (listed (get_clients false (StString "complete") t)))%nat
  = List.length t.
Proof.
  unfold get_clients; simpl.
  induction t as [|c t IH]; simpl; intros Hk; [reflexivity|].
  apply andb_true_iff in Hk; destruct Hk as [Hc Ht]; specialize (IH Ht).
  destruct (col_status c) as [s|]; [|discriminate]; simpl in *.
  destruct (String.eqb_spec s "backlog") as [E|H1]; [subst s; simpl; lia|].
  destruct (String.eqb_spec s "inProgress") as [E|H2]; [subst s; simpl; lia|].
  destruct (String.eqb_spec s "complete") as [E|H3]; [subst s; simpl; lia|].
  discriminate Hc.
Qed.

Lemma lane_listings_cover_witness :
  (List.length (listed (get_clients false (StString "backlog") scenario_A))
   + List.length (listed (get_clients false (StString "inProgress") scenario_A))
   + List.length (listed (get_clients false (StString "complete") scenario_A)))%nat
  = List.length scenario_A.
Proof.
  apply (lane_listings_cover scenario_A); reflexivity.
Defined.

(** ** Fetching one client *)

(** X15. [GET /api/v1/clients/:id] answers a row only when that row is in the
    table and has the id asked for; it answers 400 exactly when the id did
    not parse or names no row, 500 only when its own read fails, and never
    200 without a row. *)
Theorem get_client_answers (err : bool) (id : option Z) (t : Table) :
  match get_client err id t with
  | SendRow code r =>
      code = 200 /\ err = false /\
      exists i c, id = Some i /\ r = Some c /\ col_id c = i /\ In c t
  | SendBody code body =>
      (code = 400 /\ (id = None \/ exists i, id = Some i /\ ~ In i (map col_id t)))
      \/ (code = 500 /\ body = DatabaseError /\ err = true)
  end.
Proof.
  unfold get_client, validateId.
  destruct id as [i|]; [|left; auto].
  destruct (find (fun c => col_id c =? i) t) as [c|] eqn:E.
  - destruct err; [right; auto|].
    split; [reflexivity|split; [reflexivity|]].
    exists i, c; simpl; rewrite E.
    apply find_some in E; destruct E as [Hin Hid]; apply Z.eqb_eq in Hid; auto.
  - left; split; [reflexivity|right]. exists i; split; [reflexivity|].
    intros Hin; destruct (find_id_some _ _ Hin) as [c Hc]; congruence.
Qed.

Lemma find_id_map (g : Client -> Client) (i : Z) (t : Table) :
  (forall c, col_id (g c) = col_id c) ->
  find (fun c => col_id c =? i) (map g t) =
  option_map g (find (fun c => col_id c =? i) t).
Proof.
  intros Hg; induction t as [|c t IH]; simpl; [reflexivity|].
  rewrite Hg; destruct (col_id c =? i); [reflexivity|exact IH].
Qed.

(** The first row with id [i] after an accepted rank change whose target
    update took effect. *)
Lemma found_after_rank_change (o : Oracle) (i : Z) (L : string) (R : Q)
    (t : Table) (c : Client) :
  find (fun c => col_id c =? i) t = Some c ->
  In L lanes ->
  (0 < R)%Q ->
  fail_target o = false ->
  find (fun c => col_id c =? i)
       (store_after (put_client o (Some i) (StString L) (PrNumber R) t)) =
  Some (mkClient i (Some L) (Some R) (col_rest c)).
Proof.
  intros Hf HL HR Hft.
  pose proof (find_id_in _ _ _ Hf) as Hi.
  pose proof Hf as Hc; apply find_some in Hc; destruct Hc as [_ Hc].
  apply Z.eqb_eq in Hc.
  rewrite rank_change_store; try assumption.
  2:{ rewrite (lane_included _ HL); apply andb_false_r. }
  cbv zeta; rewrite Hft; simpl bind_status.
  rewrite find_id_map by (intros; apply target_row_id).
  destruct (fail_shift o).
  - rewrite Hf; simpl; rewrite target_row_hit by exact Hc.
    rewrite Hc; reflexivity.
  - rewrite find_id_map by (intros; apply shift_row_id).
    rewrite Hf; simpl; rewrite target_row_hit by (rewrite shift_row_id; exact Hc).
    rewrite shift_row_id, shift_row_rest, Hc; reflexivity.
Qed.

(** X16. Read your write: after a record is given a lane and a positive rank and
    its update succeeds, fetching it by id answers 200 with that lane and
    that rank, and its other columns as they were. *)
Theorem get_client_after_put (o : Oracle) (i : Z) (L : string) (R : Q)
    (t : Table) (c : Client) :
  find (fun c => col_id c =? i) t = Some c ->
  In L lanes ->
  (0 < R)%Q ->
  fail_target o = false ->
  get_client false (Some i)
    (store_after (put_client o (Some i) (StString L) (PrNumber R) t)) =
  SendRow 200 (Some (mkClient i (Some L) (Some R) (col_rest c))).
Proof.
  intros Hf HL HR Hft.
  pose proof (found_after_rank_change o i L R t c Hf HL HR Hft) as H.
  unfold get_client, validateId; simpl sql_int_eq; rewrite H; reflexivity.
Qed.

Lemma get_client_after_put_witness :
  get_client false (Some 3)
    (store_after (put_client (no_faults 0) (Some 3) (StString "complete")
                    (PrNumber 1) scenario_A)) =
  SendRow 200 (Some (mkClient 3 (Some "complete") (Some 1%Q)
                       (col_rest (row 3 "backlog" 3)))).
Proof.
  apply (get_client_after_put (no_faults 0) 3 "complete" 1 scenario_A
           (row 3 "backlog" 3)).
  - reflexivity.
  - simpl; right; right; left; reflexivity.
  - reflexivity.
  - reflexivity.
Defined.

(** X17. After such an update the record is in the listing of its new lane, at
    its new rank. *)
Theorem lane_listing_after_put (o : Oracle) (i : Z) (L : string) (R : Q)
    (t : Table) (c : Client) :
  find (fun c => col_id c =? i) t = Some c ->
  In L lanes ->
  (0 < R)%Q ->
  fail_target o = false ->
  In (mkClient i (Some L) (Some R) (col_rest c))
     (listed (get_clients false (StString L)
                (store_after (put_client o (Some i) (StString L) (PrNumber R) t)))).
Proof.
  intros Hf HL HR Hft.
  pose proof (found_after_rank_change o i L R t c Hf HL HR Hft) as H.
  apply find_some in H; destruct H as [Hin _].
  assert (E : forall t', listed (get_clients false (StString L) t') =
                         filter (fun c => sql_text_eq (col_status c) (Some L)) t').
  { intros t'; simpl in HL; destruct HL as [<-|[<-|[<-|[]]]]; reflexivity. }
  rewrite E; apply filter_In; split; [exact Hin|].
  simpl; apply String.eqb_refl.
Qed.

Lemma lane_listing_after_put_witness :
  In (mkClient 3 (Some "complete") (Some 1%Q) (col_rest (row 3 "backlog" 3)))
     (listed (get_clients false (StString "complete")
                (store_after (put_client (no_faults 0) (Some 3) (StString "complete")
                                (PrNumber 1) scenario_A)))).
Proof.
  apply (lane_listing_after_put (no_faults 0) 3 "complete" 1 scenario_A
           (row 3 "backlog" 3)).
  - reflexivity.
  - simpl; right; right; left; reflexivity.
  - reflexivity.
  - reflexivity.
Defined.

(** X18. A rank sent without a lane takes the record off the board: once its
    update has taken effect, the listing of none of the three lanes shows a
    row with that id. *)
Theorem rank_only_hides_record (o : Oracle) (i : Z) (status : JsStatus) (R : Q)
    (t : Table) (s : string) (c : Client) :
  In i (map col_id t) ->
  bind_status status = None ->
  (0 < R)%Q ->
  fail_target o = false ->
  In s lanes ->
  In c (listed (get_clients false (StString s)
                  (store_after (put_client o (Some i) status (PrNumber R) t)))) ->
  col_id c <> i.
Proof.
  intros Hi Hb HR Hft HL Hin Hc.
  assert (Hs : truthy_status status && negb (includes lanes status) = false).
  { destruct status; [reflexivity|reflexivity|discriminate Hb]. }
  rewrite rank_change_store in Hin by assumption.
  cbv zeta in Hin; rewrite Hft, Hb in Hin.
  assert (Hrows : exists t', In c (filter (fun c => sql_text_eq (col_status c) (Some s))
                                      (map (target_row None (Some R) (Some i)) t'))).
  { eexists. simpl in HL; destruct HL as [<-|[<-|[<-|[]]]]; exact Hin. }
  destruct Hrows as [t' Hrows].
  apply filter_In in Hrows; destruct Hrows as [Hmap Hst].
  apply in_map_iff in Hmap; destruct Hmap as [c0 [<- _]].
  rewrite target_row_id in Hc.
  rewrite target_row_hit in Hst by exact Hc. discriminate Hst.
Qed.

Lemma rank_only_hides_record_witness :
  col_id (row 2 "backlog" 2) <> 1.
Proof.
  apply (rank_only_hides_record (no_faults 0) 1 StUndefined 2 scenario_A "backlog"
           (row 2 "backlog" 2)).
  - simpl; left; reflexivity.
  - reflexivity.
  - reflexivity.
  - reflexivity.
  - simpl; left; reflexivity.
  - simpl; left; reflexivity.
Defined.

(** ** The answers *)

Lemma no_faults_fails (k : nat) (s : Stmt) : fails (no_faults k) s = false.
Proof. destruct s; reflexivity. Qed.

Lemma execute_quiet_runs (k : nat) (l : list Stmt) (d : Db) :
  execute (no_faults k) (map Run l) d = ([], run_all (no_faults k) l d).
Proof.
  revert d; induction l as [|s l IH]; intros d; simpl; [reflexivity|].
  rewrite no_faults_fails; apply IH.
Qed.

(** When nothing fails there is one answer: the table as it is when the
    final read runs. *)
Lemma execute_quiet (k' k : nat) (l : list Stmt) (d : Db) :
  execute (no_faults k') (schedule k l) d =
  ([Send 200 (Rows (working (run_all (no_faults k') (firstn k l) d)))],
   run_all (no_faults k') l d).
Proof.
  assert (H : forall l1 l2 d0,
            execute (no_faults k') (map Run l1 ++ All :: map Run l2) d0 =
            ([Send 200 (Rows (working (run_all (no_faults k') l1 d0)))],
             run_all (no_faults k') (l1 ++ l2) d0)).
  { intros l1; induction l1 as [|s l1 IH]; intros l2 d0; simpl.
    - rewrite execute_quiet_runs; reflexivity.
    - rewrite no_faults_fails; apply IH. }
  unfold schedule; rewrite H, firstn_skipn; reflexivity.
Qed.

Lemma quiet_put (k : nat) (id : option Z) (status : JsStatus)
    (priority : JsPriority) (t : Table) :
  (exists message long_message,
     put_client (no_faults k) id status priority t =
     ([Send 400 (Message message long_message)], connect t))
  \/ (exists stmts,
        (List.length stmts <= 4)%nat /\
        put_client (no_faults k) id status priority t =
        ([Send 200 (Rows (working (run_all (no_faults k) (firstn k stmts) (connect t))))],
         run_all (no_faults k) stmts (connect t)) /\
        working (run_all (no_faults k) stmts (connect t)) =
        committed (run_all (no_faults k) stmts (connect t))).
Proof.
  unfold put_client.
  destruct (validateId id t) as [|m] eqn:Hv.
  2:{ left. unfold validateId in Hv. destruct id as [i|].
      - destruct (find _ t); [discriminate|]. injection Hv as <-; eauto.
      - injection Hv as <-; eauto. }
  destruct (truthy_status status && negb (includes lanes status));
    [left; unfold InvalidLane; eauto|].
  destruct (truthy_priority priority).
  - unfold validatePriority. destruct (isNaN priority || le_zero priority); [left; eauto|].
    right; eexists; split; [|split; [apply execute_quiet|reflexivity]]. simpl; lia.
  - destruct (truthy_status status).
    + right; eexists; split; [|split; [apply execute_quiet|reflexivity]]. simpl; lia.
    + right; exists []; split; [simpl; lia|split; [apply execute_quiet|reflexivity]].
Qed.

(** X19. When no statement fails every request is answered exactly once: either
    400 with a message, the table left as it was, or 200 with a listing. *)
Theorem put_answers_once (k : nat) (id : option Z) (status : JsStatus)
    (priority : JsPriority) (t : Table) :
  let r := put_client (no_faults k) id status priority t in
  (exists message long_message,
     fst r = [Send 400 (Message message long_message)] /\ snd r = connect t)
  \/ (exists rows, fst r = [Send 200 (Rows rows)]).
Proof.
  cbv zeta.
  destruct (quiet_put k id status priority t) as [(m & lm & H)|(stmts & _ & H & _)];
    rewrite H; [left; exists m, lm; auto|right; eexists; reflexivity].
Qed.

(** X20. When the final read runs before the queued statements and nothing
    fails, the listing an accepted request is answered with is the table as
    it was before the update. *)
Theorem early_read_lists_old_table (id : option Z) (status : JsStatus)
    (priority : JsPriority) (t : Table) :
  let r := put_client (no_faults 0) id status priority t in
  (exists message long_message, fst r = [Send 400 (Message message long_message)])
  \/ fst r = [Send 200 (Rows t)].
Proof.
  cbv zeta.
  destruct (quiet_put 0 id status priority t) as [(m & lm & H)|(stmts & _ & H & _)];
    rewrite H; [left; exists m, lm; auto|right; reflexivity].
Qed.

(** X21. When the final read runs after the queued statements and nothing fails,
    the listing an accepted request is answered with is the table it
    leaves. *)
Theorem late_read_lists_new_table (k : nat) (id : option Z) (status : JsStatus)
    (priority : JsPriority) (t : Table) :
  (4 <= k)%nat ->
  let r := put_client (no_faults k) id status priority t in
  (exists message long_message, fst r = [Send 400 (Message message long_message)])
  \/ fst r = [Send 200 (Rows (store_after r))].
Proof.
  intros Hk; cbv zeta; unfold store_after.
  destruct (quiet_put k id status priority t) as [(m & lm & H)|(stmts & Hl & H & Hw)];
    rewrite H; [left; exists m, lm; auto|right]; simpl.
  rewrite firstn_all2 by lia. rewrite Hw; reflexivity.
Qed.

Lemma late_read_lists_new_table_witness :
  let r := put_client (no_faults 4) (Some 3) (StString "backlog") (PrNumber 1)
             scenario_A in
  (exists message long_message, fst r = [Send 400 (Message message long_message)])
  \/ fst r = [Send 200 (Rows (store_after r))].
Proof.
  apply (late_read_lists_new_table 4 (Some 3) (StString "backlog") (PrNumber 1)
           scenario_A).
  lia.
Defined.

(** X22. When the update of a lane-only request fails, the handler calls
    [res.send] twice, once with 500, and the table is left as it was. *)
Theorem failed_lane_update_answers_twice (o : Oracle) (i : Z) (L : string)
    (priority : JsPriority) (t : Table) :
  In i (map col_id t) ->
  In L lanes ->
  truthy_priority priority = false ->
  fail_status o = true ->
  let r := put_client o (Some i) (StString L) priority t in
  (exists r1 r2, fst r = [r1; r2] /\ (r1 = StorageError \/ r2 = StorageError)) /\
  snd r = connect t.
Proof.
  intros Hi HL Hp Hf; cbv zeta; unfold put_client.
  rewrite (validateId_found _ _ Hi), (lane_included _ HL), Hp, andb_false_r.
  assert (Ht : truthy_status (StString L) = true).
  { simpl in HL. destruct HL as [<-|[<-|[<-|[]]]]; reflexivity. }
  rewrite Ht; unfold schedule.
  destruct (select_at o) as [|k]; simpl; rewrite ?firstn_nil, ?skipn_nil; simpl;
    rewrite Hf; simpl; (split; [|reflexivity]); do 2 eexists;
    (split; [reflexivity|]); unfold StorageError; auto.
Qed.

Lemma failed_lane_update_answers_twice_witness :
  let r := put_client (mkOracle false false true false 1) (Some 2)
             (StString "complete") PrUndefined scenario_A in
  (exists r1 r2, fst r = [r1; r2] /\ (r1 = StorageError \/ r2 = StorageError)) /\
  snd r = connect scenario_A.
Proof.
  apply (failed_lane_update_answers_twice (mkOracle false false true false 1) 2
           "complete" PrUndefined scenario_A).
  - simpl; right; left; reflexivity.
  - simpl; right; right; left; reflexivity.
  - reflexivity.
  - reflexivity.
Defined.

(** ** Further invariants *)

Lemma is_integer_succ (p : Q) : is_integer p = true -> is_integer (p + 1) = true.
Proof.
  unfold is_integer; rewrite !Qeq_bool_iff; intros H.
  assert (E : (p + 1 == inject_Z (Qfloor p + 1))%Q).
  { rewrite inject_Z_plus; rewrite <- H; reflexivity. }
  rewrite E at 2; rewrite Qfloor_Z; exact E.
Qed.

(** X23. If every rank in the table is a whole number and the request carries no
    fraction, every rank is still a whole number afterwards, whatever
    fails. *)
Theorem put_keeps_ranks_integer (o : Oracle) (id : option Z) (status : JsStatus)
    (priority : JsPriority) (t : Table) :
  integer_ranks t = true ->
  match priority with PrNumber n => is_integer n | _ => true end = true ->
  integer_ranks (store_after (put_client o id status priority t)) = true.
Proof.
  intros Hint Hreq; unfold store_after.
  destruct (put_client_cases o id status priority t)
    as [H|[(i & R & _ & -> & _ & _ & _ & H)|(i & L & _ & _ & _ & _ & _ & H)]];
    rewrite H; simpl; [exact Hint| |].
  - unfold integer_ranks in *; rewrite forallb_forall in *; intros c' Hc'.
    apply in_map_iff in Hc'; destruct Hc' as [c [<- Hc]].
    specialize (Hint c Hc).
    assert (Hs : match col_priority ((if fail_shift o then fun x => x
                   else shift_row (bind_status status) (Some R)) c) with
                 | Some p => is_integer p | None => true end = true).
    { destruct (fail_shift o); [exact Hint|].
      rewrite shift_row_priority. destruct (col_priority c) as [p|]; [|reflexivity].
      destruct (_ && _); [apply is_integer_succ|]; exact Hint. }
    destruct (fail_target o); [exact Hs|].
    unfold target_row; destruct (sql_int_eq _ _); [exact Hreq|exact Hs].
  - unfold integer_ranks in *; rewrite forallb_forall in *; intros c' Hc'.
    apply in_map_iff in Hc'; destruct Hc' as [c [<- Hc]].
    specialize (Hint c Hc).
    destruct (fail_status o); [exact Hint|].
    unfold status_row; destruct (sql_int_eq _ _); exact Hint.
Qed.

Lemma put_keeps_ranks_integer_witness :
  integer_ranks
    (store_after (put_client (no_faults 0) (Some 3) (StString "backlog")
                    (PrNumber 1) scenario_A)) = true.
Proof.
  apply (put_keeps_ranks_integer (no_faults 0) (Some 3) (StString "backlog")
           (PrNumber 1) scenario_A).
  - reflexivity.
  - reflexivity.
Defined.

Lemma unique_ranks_map_all (L : string) (g : Client -> Client) (t : Table) :
  (forall a b, clash L a b = false -> clash L (g a) (g b) = false) ->
  unique_ranks L t = true ->
  unique_ranks L (map g t) = true.
Proof.
  intros Hg; induction t as [|c t IH]; simpl; intros Hu; [reflexivity|].
  apply andb_true_iff in Hu; destruct Hu as [Hc Ht].
  apply andb_true_iff; split; [|apply IH; assumption].
  apply forallb_forall; intros b' Hb'.
  apply in_map_iff in Hb'; destruct Hb' as [b [<- Hb]].
  rewrite forallb_forall in Hc; specialize (Hc b Hb).
  rewrite Hg; [reflexivity|destruct (clash L c b); [discriminate|reflexivity]].
Qed.

(** X24. A request that changes only the lane keeps ranks unique in every lane
    other than the one it names: taking a record out of a lane cannot make
    two ranks collide there. *)
Theorem lane_move_keeps_other_lanes_unique (o : Oracle) (id : option Z) (L : string)
    (priority : JsPriority) (t : Table) (L' : string) :
  truthy_priority priority = false ->
  L' <> L ->
  unique_ranks L' t = true ->
  unique_ranks L' (store_after (put_client o id (StString L) priority t)) = true.
Proof.
  intros Hp Hne Hu; unfold store_after.
  destruct (put_client_cases o id (StString L) priority t)
    as [H|[(i & R & _ & -> & HR & _ & _ & H)|(i & L0 & _ & E & _ & _ & _ & H)]];
    rewrite H; simpl; [exact Hu| |].
  - rewrite (positive_truthy _ HR) in Hp; discriminate Hp.
  - injection E as <-.
    destruct (fail_status o); [rewrite map_id; exact Hu|].
    apply unique_ranks_map_all; [|exact Hu].
    intros a b Hab; apply no_clash; intros C; apply clash_iff in C.
    destruct C as (Ha & Hb & p & q & Pa & Pb & Epq).
    assert (Hsame : forall c, col_status (status_row (Some L) (Some i) c) = Some L' ->
                              status_row (Some L) (Some i) c = c).
    { intros c; unfold status_row; destruct (sql_int_eq _ _); [|reflexivity].
      simpl; intros E; injection E as E; congruence. }
    pose proof (Hsame a Ha) as Ea; pose proof (Hsame b Hb) as Eb.
    rewrite Ea in Ha, Pa; rewrite Eb in Hb, Pb.
    assert (clash L' a b = true); [|congruence].
    apply clash_iff; repeat split; auto; exists p, q; auto.
Qed.

Lemma lane_move_keeps_other_lanes_unique_witness :
  unique_ranks "backlog"
    (store_after (put_client (no_faults 0) (Some 2) (StString "complete")
                    PrUndefined scenario_A)) = true.
Proof.
  apply (lane_move_keeps_other_lanes_unique (no_faults 0) (Some 2) "complete"
           PrUndefined scenario_A "backlog").
  - reflexivity.
  - discriminate.
  - reflexivity.
Defined.

(** The successor of a safe rank is a whole number of magnitude at most 2^53,
    which an IEEE double and a 64-bit integer both hold exactly: on safe
    ranks the exact sum is the sum SQLite computes. *)
Lemma safe_rank_succ (p : Q) :
  safe_rank p = true ->
  is_integer (p + 1) = true /\
  (inject_Z (- 9007199254740990) <= p + 1)%Q /\
  (p + 1 <= inject_Z 9007199254740992)%Q.
Proof.
  unfold safe_rank; intros H.
  apply andb_true_iff in H; destruct H as [H Hhi].
  apply andb_true_iff in H; destruct H as [Hint Hlo].
  apply Qle_bool_iff in Hhi, Hlo.
  split; [apply is_integer_succ; exact Hint|].
  unfold inject_Z in *; split; lra.
Qed.
